(** * models/vto.py: the virtual try-on adapter

    A shallow embedding of [generate_vto_image] and [call_virtual_try_on].
    The two functions are glue around collaborators that live outside the
    file (the genai client, the URL converter, the storage writer, the
    uuid generator, the configuration object), so the embedding threads an
    external world through every collaborator call and records each call,
    with its arguments and its outcome, in a trace.  The properties below
    are statements about the result of a call and about that trace.

    What the embedding takes for granted: [print] and [uuid.uuid4] do not
    raise, and building the SDK's value objects ([Image.from_file],
    [ProductImage], [RecontextImageSource], [RecontextImageConfig]) only
    stores the arguments given.  Every other collaborator call may raise. *)

From stdpp Require Import base strings list gmap pretty.
From Stdlib Require Import ZArith Ascii.

(** ** Python values the module handles *)

(** A raised exception: its class name and its message. *)
Record exn := PyExn { exn_class : string; exn_msg : string }.

Definition ValueError (msg : string) : exn := PyExn "ValueError" msg.

(** What a Python call does: it returns a value or raises. *)
Inductive res (A : Type) : Type :=
| Returns (v : A)
| Raises (e : exn).
Arguments Returns {A} v.
Arguments Raises {A} e.

Definition res_map {A B} (f : A → B) (r : res A) : res B :=
  match r with
  | Returns v => Returns (f v)
  | Raises e => Raises e
  end.

Definition returned {A} (r : res A) : Prop :=
  match r with Returns _ => True | Raises _ => False end.

(** [bytes] objects. *)
Abbreviation bytes := (list Byte.byte).

(** The text an f-string substitutes for a [str] or [None] argument. *)
Definition format_str (v : option string) : string :=
  match v with
  | Some s => s
  | None => "None"
  end.

(** The text an f-string substitutes for the non-negative [int] that
    [enumerate] yields: its decimal digits. *)
Definition format_index (i : nat) : string := pretty i.

(** ** uuid.UUID

    A UUID object holds an integer below 2^128; [str] renders it as 32
    lower-case hexadecimal digits grouped 8-4-4-4-12. *)
Record UUID := MkUUID { uuid_int : N }.

Definition hex_char (d : N) : ascii :=
  match d with
  | 0 => "0" | 1 => "1" | 2 => "2" | 3 => "3" | 4 => "4" | 5 => "5"
  | 6 => "6" | 7 => "7" | 8 => "8" | 9 => "9" | 10 => "a" | 11 => "b"
  | 12 => "c" | 13 => "d" | 14 => "e" | _ => "f"
  end%char%N.

Fixpoint hex_digits (width : nat) (x : N) (acc : string) : string :=
  match width with
  | O => acc
  | S width' => hex_digits width' (x `div` 16)%N (String (hex_char (x `mod` 16)%N) acc)
  end.

Definition UUID_str (u : UUID) : string :=
  let hex := hex_digits 32 (uuid_int u) "" in
  String.substring 0 8 hex +:+ "-" +:+ String.substring 8 4 hex +:+ "-" +:+
  String.substring 12 4 hex +:+ "-" +:+ String.substring 16 4 hex +:+ "-" +:+
  String.substring 20 12 hex.

(** ** google.genai.types, as far as the module builds and reads them *)

Record Image := { location : string }.

(** [Image.from_file(location=...)] *)
Definition Image_from_file (loc : string) : Image := {| location := loc |}.

Record ProductImage := { product_image : Image }.

Record RecontextImageSource := {
  person_image : Image;
  product_images : list ProductImage
}.

Record RecontextImageConfig := {
  base_steps : Z;
  number_of_images : Z
}.

(** The keyword arguments of [client.models.recontext_image]. *)
Record RecontextImageRequest := {
  model : string;
  source : RecontextImageSource;
  config : RecontextImageConfig
}.

Record GeneratedImage := { data : bytes }.

(** [generated_images] is an optional list: it may be [None]. *)
Record RecontextImageResponse := {
  generated_images : option (list GeneratedImage)
}.

(** [not response.generated_images]: true for [None] and for the empty
    list. *)
Definition no_generated_images (response : RecontextImageResponse) : bool :=
  match generated_images response with
  | None => true
  | Some [] => true
  | Some (_ :: _) => false
  end.

(** ** config.default.Default *)
Record Default := { VTO_MODEL_ID : string }.

(** ** common.storage.store_to_gcs: its keyword arguments *)
Record StoreArgs := {
  folder : string;
  file_name : string;
  mime_type : string;
  contents : bytes;
  decode : bool
}.

(** ** The collaborators

    None of them is defined in models/vto.py.  Each is taken as given: a
    function of the external world that returns or raises and leaves a new
    world behind.  [cfg] is the module-level [Default()] object, built once
    when the module is imported. *)
Class Collaborators (World Client : Type) := {
  cfg : Default;
  (** [genai.Client()] *)
  genai_Client : World → res Client * World;
  (** Modelled from the spec: [common.utils.https_url_to_gcs_uri] is not
      part of this file; the spec gives it as a pure function from the
      web-URL form to the storage-URI form that fails on input it does not
      recognise. *)
  https_url_to_gcs_uri : option string → res string;
  (** [client.models.recontext_image(model=, source=, config=)] *)
  recontext_image :
    Client → RecontextImageRequest → World → res RecontextImageResponse * World;
  (** [uuid.uuid4()] *)
  uuid4 : World → UUID * World;
  (** [common.storage.store_to_gcs(folder=, file_name=, mime_type=,
      contents=, decode=)]; it returns the URI of the object written. *)
  store_to_gcs : StoreArgs → World → res string * World
}.

(** ** The legacy response shape

    [SimpleNamespace(predictions=...)] is an object whose attributes are the
    keywords it was built with; each prediction is a [dict] from [str] to
    [str]. *)
Abbreviation prediction := (gmap string string).
Abbreviation SimpleNamespace := (gmap string (list (gmap string string))).

Section vto.
Context {World Client : Type} `{!Collaborators World Client}.

(** ** Traces: every collaborator call, in program order, with its outcome *)
Inductive event : Type :=
| Stdout (line : string)
| StdoutResponse (response : RecontextImageResponse)
| ClientNew (out : res Client)
| Convert (url : option string) (out : res string)
| Recontext (client : Client) (request : RecontextImageRequest)
            (out : res RecontextImageResponse)
| Uuid4 (out : UUID)
| Store (args : StoreArgs) (out : res string).

Record state := { world : World; trace : list event }.

Definition init (w : World) : state := {| world := w; trace := [] |}.

Implicit Types (w : World) (c : Client) (e : exn) (u : UUID).
Implicit Types (tr evs : list event) (st : state).
Implicit Types (images : list GeneratedImage) (gcs_uris : list string).

(** ** The monad of the embedding: state passing with exceptions *)
Definition M (A : Type) : Type := state → res A * state.

#[global] Instance M_ret : MRet M := λ A v st, (Returns v, st).

#[global] Instance M_bind : MBind M := λ A B f m st,
  match m st with
  | (Returns v, st') => f v st'
  | (Raises e, st') => (Raises e, st')
  end.

Definition raise {A} (e : exn) : M A := λ st, (Raises e, st).

Definition log (ev : event) (st : state) : state :=
  {| world := world st; trace := trace st ++ [ev] |}.

(** A call of a collaborator that may raise: run it on the world, record
    the call with its outcome, pass the outcome on. *)
Definition call {A} (f : World → res A * World) (ev : res A → event) : M A :=
  λ st, let '(out, w') := f (world st) in
        (out, log (ev out) {| world := w'; trace := trace st |}).

(** A call of a pure collaborator. *)
Definition call_pure {A} (out : res A) (ev : res A → event) : M A :=
  λ st, (out, log (ev out) st).

Definition print (line : string) : M unit :=
  λ st, (Returns (), log (Stdout line) st).

Definition print_response (response : RecontextImageResponse) : M unit :=
  λ st, (Returns (), log (StdoutResponse response) st).

Definition fresh_uuid : M UUID :=
  λ st, let '(u, w') := uuid4 (world st) in
        (Returns u, log (Uuid4 u) {| world := w'; trace := trace st |}).

(** What a trace says about each collaborator: its calls, oldest first. *)
Fixpoint client_calls (tr : list event) : list (res Client) :=
  match tr with
  | [] => []
  | ClientNew out :: tr' => out :: client_calls tr'
  | _ :: tr' => client_calls tr'
  end.

Fixpoint convert_calls (tr : list event) : list (option string * res string) :=
  match tr with
  | [] => []
  | Convert url out :: tr' => (url, out) :: convert_calls tr'
  | _ :: tr' => convert_calls tr'
  end.

Fixpoint recontext_calls (tr : list event)
    : list (Client * RecontextImageRequest * res RecontextImageResponse) :=
  match tr with
  | [] => []
  | Recontext c req out :: tr' => (c, req, out) :: recontext_calls tr'
  | _ :: tr' => recontext_calls tr'
  end.

Fixpoint uuid_calls (tr : list event) : list UUID :=
  match tr with
  | [] => []
  | Uuid4 u :: tr' => u :: uuid_calls tr'
  | _ :: tr' => uuid_calls tr'
  end.

Fixpoint store_calls (tr : list event) : list (StoreArgs * res string) :=
  match tr with
  | [] => []
  | Store args out :: tr' => (args, out) :: store_calls tr'
  | _ :: tr' => store_calls tr'
  end.

(** The two halves of what running a function yields. *)
Definition result_of {A} (run : res A * state) : res A := run.1.
Definition trace_of {A} (run : res A * state) : list event := trace run.2.

(** ** generate_vto_image *)

(** f"vto_result_{unique_id}-{i}_.png" *)
Definition vto_file_name (unique_id : UUID) (i : nat) : string :=
  "vto_result_" +:+ UUID_str unique_id +:+ "-" +:+ format_index i +:+ "_.png".

(** The keyword arguments of the [store_to_gcs] call in the loop body. *)
Definition vto_store_args (unique_id : UUID) (i : nat)
    (generated_image : GeneratedImage) : StoreArgs :=
  {| folder := "vto_results";
     file_name := vto_file_name unique_id i;
     mime_type := "image/png";
     contents := data generated_image;
     decode := false |}.

(** The keyword arguments of the [recontext_image] call. *)
Definition vto_request (person_gcs_uri product_gcs_uri : string)
    (sample_count base_steps : Z) : RecontextImageRequest :=
  {| model := VTO_MODEL_ID cfg;
     source :=
       {| person_image := Image_from_file person_gcs_uri;
          product_images :=
            [ {| product_image := Image_from_file product_gcs_uri |} ] |};
     config :=
       {| base_steps := base_steps; number_of_images := sample_count |} |}.

(** The loop [for i, generated_image in enumerate(...)], from index [i]
    on, with [gcs_uris] the list appended to so far. *)
Fixpoint store_images (i : nat) (images : list GeneratedImage)
    (gcs_uris : list string) : M (list string) :=
  match images with
  | [] => mret gcs_uris
  | generated_image :: rest =>
      unique_id ← fresh_uuid;
      gcs_uri ← call (store_to_gcs (vto_store_args unique_id i generated_image))
                     (Store (vto_store_args unique_id i generated_image));
      store_images (S i) rest (gcs_uris ++ [gcs_uri])
  end.

Definition generate_vto_image (person_gcs_url product_gcs_url : option string)
    (sample_count base_steps : Z) : M (list string) :=
  print "--- VTO GenAI Request ---";;
  print ("Person Image: " +:+ format_str person_gcs_url);;
  print ("Product Image: " +:+ format_str product_gcs_url);;
  print ("Model: " +:+ VTO_MODEL_ID cfg);;
  print "-------------------------";;
  client ← call genai_Client ClientNew;
  person_gcs_uri ←
    call_pure (https_url_to_gcs_uri person_gcs_url) (Convert person_gcs_url);
  product_gcs_uri ←
    call_pure (https_url_to_gcs_uri product_gcs_url) (Convert product_gcs_url);
  response ←
    call (recontext_image client
            (vto_request person_gcs_uri product_gcs_uri sample_count base_steps))
         (Recontext client
            (vto_request person_gcs_uri product_gcs_uri sample_count base_steps));
  print "--- VTO GenAI Response ---";;
  print_response response;;
  print "------------------------";;
  let gcs_uris := [] in
  if no_generated_images response
  then raise (ValueError "VTO API returned no generated images.")
  else
    match generated_images response with
    | Some images => store_images 0 images gcs_uris
    | None => raise (PyExn "TypeError" "'NoneType' object is not iterable")
    end.

(** ** call_virtual_try_on

    [person_image_uri] and [product_image_uri] default to [None], so an
    omitted reference and an explicit [None] are the same value;
    [sample_count] is [None] here when the caller leaves it out. *)
Definition call_virtual_try_on (person_image_uri product_image_uri : option string)
    (sample_count : option Z) : M SimpleNamespace :=
  let sample_count := default 1%Z sample_count in
  gcs_uris ← generate_vto_image person_image_uri product_image_uri
               sample_count 32%Z;
  let predictions := (λ uri, ({[ "gcsUri" := uri ]} : prediction)) <$> gcs_uris in
  let mock_response : SimpleNamespace := {[ "predictions" := predictions ]} in
  mret mock_response.

(** The envelope built from the URIs [generate_vto_image] returned. *)
Definition legacy_response (gcs_uris : list string) : SimpleNamespace :=
  {[ "predictions" := (λ uri, ({[ "gcsUri" := uri ]} : prediction)) <$> gcs_uris ]}.

(** ** The loop, as a relation between the images and what it does

    [loop_run i images gcs_uris evs r]: started at index [i] on [images]
    with [gcs_uris] collected so far, the loop makes the calls [evs] and
    ends in [r]. *)
Inductive loop_run : nat → list GeneratedImage → list string →
    list event → res (list string) → Prop :=
| loop_done i gcs_uris :
    loop_run i [] gcs_uris [] (Returns gcs_uris)
| loop_raise i image images gcs_uris u e :
    loop_run i (image :: images) gcs_uris
      [Uuid4 u; Store (vto_store_args u i image) (Raises e)] (Raises e)
| loop_next i image images gcs_uris u uri evs r :
    loop_run (S i) images (gcs_uris ++ [uri]) evs r →
    loop_run i (image :: images) gcs_uris
      (Uuid4 u :: Store (vto_store_args u i image) (Returns uri) :: evs) r.

(** ** A whole call, as a relation between the world and what it does *)

Definition request_banner (p q : option string) : list event :=
  [ Stdout "--- VTO GenAI Request ---";
    Stdout ("Person Image: " +:+ format_str p);
    Stdout ("Product Image: " +:+ format_str q);
    Stdout ("Model: " +:+ VTO_MODEL_ID cfg);
    Stdout "-------------------------" ].

Definition response_banner (response : RecontextImageResponse)
    : list event :=
  [ Stdout "--- VTO GenAI Response ---";
    StdoutResponse response;
    Stdout "------------------------" ].

(** The calls up to and including the request to the service. *)
Definition request_calls (p q : option string) (sc bs : Z) c (pu qu : string)
    (out : res RecontextImageResponse) : list event :=
  request_banner p q ++
  [ ClientNew (Returns c); Convert p (Returns pu); Convert q (Returns qu);
    Recontext c (vto_request pu qu sc bs) out ].

Inductive vto_run (p q : option string) (sc bs : Z) w :
    list event → res (list string) → Prop :=
| run_no_client e w1 :
    genai_Client w = (Raises e, w1) →
    vto_run p q sc bs w (request_banner p q ++ [ClientNew (Raises e)]) (Raises e)
| run_bad_person c w1 e :
    genai_Client w = (Returns c, w1) →
    https_url_to_gcs_uri p = Raises e →
    vto_run p q sc bs w
      (request_banner p q ++ [ClientNew (Returns c); Convert p (Raises e)])
      (Raises e)
| run_bad_product c w1 pu e :
    genai_Client w = (Returns c, w1) →
    https_url_to_gcs_uri p = Returns pu →
    https_url_to_gcs_uri q = Raises e →
    vto_run p q sc bs w
      (request_banner p q ++
       [ClientNew (Returns c); Convert p (Returns pu); Convert q (Raises e)])
      (Raises e)
| run_service_error c w1 pu qu e w2 :
    genai_Client w = (Returns c, w1) →
    https_url_to_gcs_uri p = Returns pu →
    https_url_to_gcs_uri q = Returns qu →
    recontext_image c (vto_request pu qu sc bs) w1 = (Raises e, w2) →
    vto_run p q sc bs w (request_calls p q sc bs c pu qu (Raises e)) (Raises e)
| run_no_images c w1 pu qu response w2 :
    genai_Client w = (Returns c, w1) →
    https_url_to_gcs_uri p = Returns pu →
    https_url_to_gcs_uri q = Returns qu →
    recontext_image c (vto_request pu qu sc bs) w1 = (Returns response, w2) →
    no_generated_images response = true →
    vto_run p q sc bs w
      (request_calls p q sc bs c pu qu (Returns response) ++ response_banner response)
      (Raises (ValueError "VTO API returned no generated images."))
| run_images c w1 pu qu response w2 image images evs r :
    genai_Client w = (Returns c, w1) →
    https_url_to_gcs_uri p = Returns pu →
    https_url_to_gcs_uri q = Returns qu →
    recontext_image c (vto_request pu qu sc bs) w1 = (Returns response, w2) →
    generated_images response = Some (image :: images) →
    loop_run 0 (image :: images) [] evs r →
    vto_run p q sc bs w
      (request_calls p q sc bs c pu qu (Returns response)
       ++ response_banner response ++ evs)
      r.

End vto.

(** ** Reading the index back from a file name *)

Definition is_digit (c : ascii) : bool :=
  match Ascii.is_nat c with Some _ => true | None => false end.

Fixpoint all_digits (s : string) : bool :=
  match s with
  | EmptyString => true
  | String c s' => is_digit c && all_digits s'
  end.

Fixpoint mem_char (c : ascii) (s : string) : bool :=
  match s with
  | EmptyString => false
  | String c' s' => if decide (c = c') then true else mem_char c s'
  end.

(** ** A test double for the collaborators

    A deterministic world used to run the two functions on concrete inputs:
    the client is built when credentials are present, the service replies
    what the world scripts, [uuid4] hands out the scripted integers (and
    zero once they run out), and the bucket refuses the write scripted to
    fail. *)
Module Double.

Record World := {
  credentials : bool;
  service : res RecontextImageResponse;
  uuids : list N;
  failing_write : option nat;
  bucket : list StoreArgs
}.

Fixpoint strip_prefix (prefix s : string) : option string :=
  match prefix, s with
  | EmptyString, _ => Some s
  | String a prefix', String b s' =>
      if Ascii.eqb a b then strip_prefix prefix' s' else None
  | String _ _, EmptyString => None
  end.

Definition ConversionError (url : option string) : exn :=
  PyExn "ConversionError" ("not a storage URL: " +:+ format_str url).

Definition StorageWriteError (name : string) : exn :=
  PyExn "StorageWriteError" ("could not write " +:+ name).

Definition convert (url : option string) : res string :=
  match url with
  | None => Raises (ConversionError url)
  | Some s =>
      match strip_prefix "https://storage.mtls.cloud.google.com/" s with
      | Some path => Returns ("gs://" +:+ path)
      | None =>
          match strip_prefix "https://storage.cloud.google.com/" s with
          | Some path => Returns ("gs://" +:+ path)
          | None => Raises (ConversionError url)
          end
      end
  end.

Definition new_client (w : World) : res unit * World :=
  if credentials w then (Returns (), w)
  else (Raises (ValueError "Missing key inputs argument!"), w).

Definition recontext (c : unit) (req : RecontextImageRequest) (w : World)
    : res RecontextImageResponse * World :=
  (service w, w).

Definition next_uuid (w : World) : UUID * World :=
  match uuids w with
  | [] => (MkUUID 0, w)
  | n :: rest =>
      (MkUUID n,
       {| credentials := credentials w; service := service w; uuids := rest;
          failing_write := failing_write w; bucket := bucket w |})
  end.

Definition write (args : StoreArgs) (w : World) : res string * World :=
  if decide (failing_write w = Some (length (bucket w)))
  then (Raises (StorageWriteError (file_name args)), w)
  else
    (Returns ("gs://bucket/" +:+ folder args +:+ "/" +:+ file_name args),
     {| credentials := credentials w; service := service w; uuids := uuids w;
        failing_write := failing_write w; bucket := bucket w ++ [args] |}).

#[global] Instance collaborators : Collaborators World unit := {|
  cfg := {| VTO_MODEL_ID := "virtual-try-on-preview-08-04" |};
  genai_Client := new_client;
  https_url_to_gcs_uri := convert;
  recontext_image := recontext;
  uuid4 := next_uuid;
  store_to_gcs := write
|}.

(** Two one-byte and one two-byte result image. *)
Definition img_a : GeneratedImage := {| data := [Byte.x89] |}.
Definition img_b : GeneratedImage := {| data := [Byte.x50; Byte.x4e] |}.
Definition img_c : GeneratedImage := {| data := [Byte.x47] |}.

Definition person : option string :=
  Some "https://storage.mtls.cloud.google.com/studio/person.png".
Definition product : option string :=
  Some "https://storage.cloud.google.com/studio/shirt.png".

(** A world whose service replies with [images] and whose bucket fails on
    the write numbered [failing], if any. *)
Definition world_with (images : option (list GeneratedImage))
    (ids : list N) (failing : option nat) : World :=
  {| credentials := true;
     service := Returns {| generated_images := images |};
     uuids := ids;
     failing_write := failing;
     bucket := [] |}.

(** The service replies with three images; [uuid4] repeats itself. *)
Definition stocked : World :=
  world_with (Some [img_a; img_b; img_c]) [7; 7; 9]%N None.

(** As [stocked], but the bucket refuses the second write. *)
Definition second_write_fails : World :=
  world_with (Some [img_a; img_b; img_c]) [1; 2; 3]%N (Some 1).

(** The service replies with an empty list of images. *)
Definition empty_reply : World := world_with (Some []) [] None.

(** The service replies with one image. *)
Definition one_image : World := world_with (Some [img_c]) [10]%N None.

(** As [stocked], but no credentials are configured: [genai.Client()]
    raises. *)
Definition no_credentials : World :=
  {| credentials := false;
     service := Returns {| generated_images := Some [img_a; img_b; img_c] |};
     uuids := [7; 7; 9]%N;
     failing_write := None;
     bucket := [] |}.

(** What the bucket returns for a file written to "vto_results". *)
Definition stored_uri (name : string) : string :=
  "gs://bucket/vto_results/" +:+ name.

End Double.

(** * Properties *)

(** ** File names: the index can be read back from the name *)

Lemma mem_char_app c s t : mem_char c (s +:+ t) = mem_char c s || mem_char c t.
Proof.
  induction s as [|c' s IH]; simpl; [done|].
  by destruct (decide (c = c')).
Qed.

Lemma all_digits_no_dash s : all_digits s = true → mem_char "-" s = false.
Proof.
  induction s as [|c s IH]; simpl; [done|].
  intros [Hc Hs]%andb_prop. destruct (decide ("-"%char = c)) as [<-|_]; [done|auto].
Qed.

Lemma pretty_N_char_digit x : is_digit (pretty_N_char x) = true.
Proof. unfold pretty_N_char. by repeat case_match. Qed.

Lemma pretty_N_go_digits x s :
  all_digits s = true → all_digits (pretty_N_go x s) = true.
Proof.
  revert s. induction (N.lt_wf_0 x) as [x _ IH]; intros s Hs.
  destruct (decide (x = 0)%N) as [->|Hx]; [by rewrite pretty_N_go_0|].
  rewrite pretty_N_go_step by lia. apply IH.
  - apply N.div_lt; lia.
  - simpl. by rewrite pretty_N_char_digit.
Qed.

Lemma format_index_digits i : all_digits (format_index i) = true.
Proof.
  unfold format_index, pretty, pretty_nat, pretty, pretty_N.
  case_decide; [done|]. by apply pretty_N_go_digits.
Qed.

(** Digits followed by an underscore: the digits are determined. *)
Lemma digits_before_underscore d d' t t' :
  all_digits d = true → all_digits d' = true →
  d +:+ String "_" t = d' +:+ String "_" t' → d = d'.
Proof.
  revert d'. induction d as [|c d IH]; intros [|c' d'] Hd Hd' Heq; simpl in *.
  - done.
  - injection Heq as <- _. done.
  - injection Heq as -> _. done.
  - injection Heq as <- Heq.
    apply andb_prop in Hd as [_ Hd]. apply andb_prop in Hd' as [_ Hd'].
    f_equal. by apply IH.
Qed.

(** The text after the last dash of a name is determined by the name. *)
Lemma digits_after_last_dash u u' d d' t t' :
  all_digits d = true → all_digits d' = true →
  mem_char "-" t = false → mem_char "-" t' = false →
  u +:+ String "-" (d +:+ String "_" t) = u' +:+ String "-" (d' +:+ String "_" t') →
  d = d'.
Proof.
  intros Hd Hd' Ht Ht'.
  assert (∀ d t, all_digits d = true → mem_char "-" t = false →
            mem_char "-" (d +:+ String "_" t) = false) as Hfree.
  { intros d0 t0 Hd0 Ht0. rewrite mem_char_app, all_digits_no_dash by done.
    simpl. by rewrite Ht0. }
  assert (∀ v s, mem_char "-" (v +:+ String "-" s) = true) as Hdash.
  { intros v s. rewrite mem_char_app. simpl. apply orb_true_r. }
  revert u'. induction u as [|c u IH]; intros [|c' u'] Heq; simpl in *.
  - injection Heq as Heq. by eapply digits_before_underscore.
  - injection Heq as <- Heq.
    pose proof (Hfree d t Hd Ht) as Hno. rewrite Heq, Hdash in Hno. done.
  - injection Heq as -> Heq.
    pose proof (Hfree d' t' Hd' Ht') as Hno. rewrite <-Heq, Hdash in Hno. done.
  - injection Heq as _ Heq. by eapply IH.
Qed.

Lemma vto_file_name_index u u' i j :
  vto_file_name u i = vto_file_name u' j → i = j.
Proof.
  unfold vto_file_name. intros Heq.
  apply (inj (String.app "vto_result_")) in Heq.
  apply (inj (pretty : nat → string)).
  change (format_index i = format_index j).
  eapply (digits_after_last_dash (UUID_str u) (UUID_str u') _ _ ".png" ".png");
    eauto using format_index_digits.
Qed.

Section vto_facts.
Context {World Client : Type} `{!Collaborators World Client}.

Implicit Types (w : World) (c : Client) (e : exn) (u : UUID).
Implicit Types (tr evs : list (@event Client)) (st : @state World Client).
Implicit Types (images : list GeneratedImage) (gcs_uris : list string).

Lemma store_images_run images i gcs_uris st :
  ∃ evs, trace (store_images i images gcs_uris st).2 = trace st ++ evs
         ∧ loop_run i images gcs_uris evs (store_images i images gcs_uris st).1.
Proof.
  revert i gcs_uris st.
  induction images as [|image images IH]; intros i gcs_uris st; simpl.
  - exists []. rewrite app_nil_r. split; [done|constructor].
  - unfold mbind, M_bind, fresh_uuid, call.
    destruct (uuid4 (world st)) as [u w1]; simpl.
    destruct (store_to_gcs (vto_store_args u i image) w1) as [[uri|e] w2]; simpl.
    + destruct (IH (S i) (gcs_uris ++ [uri])
                  (log (Store (vto_store_args u i image) (Returns uri))
                     {| world := w2; trace := trace st ++ [Uuid4 u] |}))
        as (evs & Htr & Hrun).
      eexists. split; [|by apply loop_next].
      rewrite Htr. simpl. by rewrite <-!app_assoc.
    + eexists. split; [|by apply loop_raise].
      simpl. by rewrite <-app_assoc.
Qed.

(** The loop calls nothing but [uuid4] and [store_to_gcs]. *)
Lemma loop_run_only_stores i images gcs_uris evs r :
  loop_run i images gcs_uris evs r →
  client_calls evs = [] ∧ convert_calls evs = [] ∧ recontext_calls evs = [].
Proof. induction 1; simpl; auto. Qed.

(** One identifier is drawn for every write, and there are no more writes
    than images. *)
Lemma loop_run_lengths i images gcs_uris evs r :
  loop_run i images gcs_uris evs r →
  length (uuid_calls evs) = length (store_calls evs)
  ∧ length (store_calls evs) ≤ length images.
Proof. induction 1; simpl in *; lia. Qed.

(** The [j]-th write persists the [j]-th image under the [j]-th identifier
    drawn and the index [i + j]. *)
Lemma loop_run_store i images gcs_uris evs r j args out :
  loop_run i images gcs_uris evs r →
  store_calls evs !! j = Some (args, out) →
  ∃ u image, uuid_calls evs !! j = Some u ∧ images !! j = Some image
             ∧ args = vto_store_args u (i + j) image.
Proof.
  intros Hrun. revert j.
  induction Hrun as [|i image images gcs_uris u e
                     |i image images gcs_uris u uri evs r _ IH];
    intros [|j] Hj; simpl in *; try done.
  - injection Hj as <- <-. exists u, image. by rewrite Nat.add_0_r.
  - injection Hj as <- <-. exists u, image. by rewrite Nat.add_0_r.
  - destruct (IH j Hj) as (u' & image' & ? & ? & ->).
    exists u', image'. by rewrite Nat.add_succ_r.
Qed.

(** A write that fails is the last one, and its error is the loop's. *)
Lemma loop_run_failed_store i images gcs_uris evs r j args e :
  loop_run i images gcs_uris evs r →
  store_calls evs !! j = Some (args, Raises e) →
  length (store_calls evs) = S j ∧ r = Raises e.
Proof.
  intros Hrun. revert j.
  induction Hrun as [|i image images gcs_uris u e'
                     |i image images gcs_uris u uri evs r _ IH];
    intros [|j] Hj; simpl in *; try done.
  - by injection Hj as <- <-.
  - destruct (IH j Hj) as [-> ->]. done.
Qed.

(** Every write before the last one succeeded. *)
Lemma loop_run_earlier_stores i images gcs_uris evs r j :
  loop_run i images gcs_uris evs r →
  S j < length (store_calls evs) →
  ∃ args uri, store_calls evs !! j = Some (args, Returns uri).
Proof.
  intros Hrun. revert j.
  induction Hrun as [|i image images gcs_uris u e'
                     |i image images gcs_uris u uri evs r _ IH];
    intros j Hj; simpl in *; try lia.
  destruct j as [|j]; simpl; [eauto|]. apply IH. lia.
Qed.

(** When no write fails the loop returns, with one URI per image: the
    URIs collected before it started, then what each write returned. *)
Lemma loop_run_all_stored i images gcs_uris evs r :
  loop_run i images gcs_uris evs r →
  Forall (λ call, returned call.2) (store_calls evs) →
  ∃ new_uris, r = Returns (gcs_uris ++ new_uris)
              ∧ (store_calls evs).*2 = Returns <$> new_uris
              ∧ length new_uris = length images.
Proof.
  induction 1 as [i gcs_uris|i image images gcs_uris u e
                 |i image images gcs_uris u uri evs r _ IH];
    simpl; intros Hall.
  - exists []. by rewrite app_nil_r.
  - by apply Forall_cons_1 in Hall as [[] _].
  - apply Forall_cons_1 in Hall as [_ Hall].
    destruct (IH Hall) as (new_uris & -> & Houts & Hlen).
    exists (uri :: new_uris). rewrite <-app_assoc. simpl.
    split_and!; [done|by f_equal|by rewrite Hlen].
Qed.

(** When the loop returns, no write failed and every image was written. *)
Lemma loop_run_returns i images gcs_uris evs all_uris :
  loop_run i images gcs_uris evs (Returns all_uris) →
  Forall (λ call, returned call.2) (store_calls evs)
  ∧ length (store_calls evs) = length images.
Proof.
  remember (Returns all_uris) as r eqn:Hr.
  induction 1 as [i gcs_uris|i image images gcs_uris u e
                 |i image images gcs_uris u uri evs r _ IH]; simpl.
  - by split; [constructor|].
  - done.
  - destruct (IH Hr) as [Hall Hlen]. split; [|by rewrite Hlen].
    by constructor.
Qed.

Lemma generate_vto_image_run p q sc bs w :
  vto_run p q sc bs w
    (trace_of (generate_vto_image p q sc bs (init w)))
    (result_of (generate_vto_image p q sc bs (init w))).
Proof.
  unfold trace_of, result_of, generate_vto_image.
  unfold mbind, M_bind, print, print_response, call, call_pure, raise, init, log.
  simpl.
  destruct (genai_Client w) as [[c|e] w1] eqn:Hclient; simpl;
    [|by eapply run_no_client].
  destruct (https_url_to_gcs_uri p) as [pu|e] eqn:Hp; simpl;
    [|by eapply run_bad_person].
  destruct (https_url_to_gcs_uri q) as [qu|e] eqn:Hq; simpl;
    [|by eapply run_bad_product].
  destruct (recontext_image c (vto_request pu qu sc bs) w1)
    as [[response|e] w2] eqn:Hservice; simpl;
    [|by eapply run_service_error].
  destruct (no_generated_images response) eqn:Hnone; simpl;
    [by eapply run_no_images|].
  unfold no_generated_images in Hnone.
  destruct (generated_images response) as [[|image images]|] eqn:Himages;
    try done.
  match goal with
  | |- context [store_images 0 _ [] ?st] =>
      destruct (store_images_run (image :: images) 0 [] st) as (evs & Htr & Hloop)
  end.
  rewrite Htr. by eapply run_images.
Qed.

(** Case analysis on a call of [generate_vto_image] from a fresh trace:
    the result and the trace become those of one constructor of
    [vto_run]. *)
Ltac run_cases p q sc bs w :=
  let Hrun := fresh "Hrun" in
  pose proof (generate_vto_image_run p q sc bs w) as Hrun;
  revert Hrun;
  generalize (result_of (generate_vto_image p q sc bs (init w)));
  generalize (trace_of (generate_vto_image p q sc bs (init w)));
  let tr := fresh "tr" in
  let r := fresh "r" in
  intros tr r Hrun; destruct Hrun;
  unfold request_calls, request_banner, response_banner; simpl;
  try match goal with
      | Hloop : loop_run _ _ _ _ _ |- _ =>
          let Hcl := fresh in
          let Hcv := fresh in
          let Hrc := fresh in
          destruct (loop_run_only_stores _ _ _ _ _ Hloop) as (Hcl & Hcv & Hrc);
          rewrite ?Hcl, ?Hcv, ?Hrc; clear Hcl Hcv Hrc
      end.

(** Two outcomes recorded for the same collaborator call are one. *)
Ltac same_calls :=
  repeat match goal with
         | H1 : ?call = _, H2 : ?call = _ |- _ => rewrite H1 in H2
         end;
  simplify_eq.

(** ** The claims about [generate_vto_image] *)

(** C1. When the service returns a non-empty sequence of generated images
    and every storage write of the call succeeds, [generate_vto_image]
    returns a list with exactly one URI per generated image, hence never
    an empty one, and its i-th entry is the URI that [store_to_gcs]
    returned for the write that persisted the i-th image: the i-th write
    of the call, whose contents are the bytes of the i-th image, made to
    folder "vto_results" as "image/png" without decoding, under the name
    built from the i-th identifier drawn and the index i. *)
Theorem generate_vto_image_one_uri_per_image
    p q sc bs w c req response images :
  let run := generate_vto_image p q sc bs (init w) in
  (c, req, Returns response) ∈ recontext_calls (trace_of run) →
  generated_images response = Some images →
  images ≠ [] →
  Forall (λ call, returned call.2) (store_calls (trace_of run)) →
  ∃ gcs_uris,
    result_of run = Returns gcs_uris
    ∧ length gcs_uris = length images
    ∧ gcs_uris ≠ []
    ∧ length (store_calls (trace_of run)) = length images
    ∧ ∀ i, i < length images →
        ∃ image u uri args,
          images !! i = Some image
          ∧ gcs_uris !! i = Some uri
          ∧ store_calls (trace_of run) !! i = Some (args, Returns uri)
          ∧ uuid_calls (trace_of run) !! i = Some u
          ∧ contents args = data image
          ∧ folder args = "vto_results"
          ∧ mime_type args = "image/png"
          ∧ decode args = false
          ∧ file_name args
            = "vto_result_" +:+ UUID_str u +:+ "-" +:+ format_index i +:+ "_.png".
Proof.
  intros run. subst run. run_cases p q sc bs w;
    intros Hcall Himages Hne Hall;
    try (by apply elem_of_nil in Hcall);
    apply list_elem_of_singleton in Hcall; try done.
  - simplify_eq. unfold no_generated_images in *. rewrite Himages in *.
    by destruct images.
  - simplify_eq.
    match goal with H : loop_run _ _ _ _ _ |- _ => rename H into Hloop end.
    destruct (loop_run_all_stored _ _ _ _ _ Hloop Hall)
      as (gcs_uris & -> & Houts & Hlen).
    assert (length (store_calls evs) = length gcs_uris) as Hstores.
    { by rewrite <-(length_fmap snd), Houts, length_fmap. }
    exists gcs_uris. split_and!; [done|done|by destruct gcs_uris|congruence|].
    intros i Hi.
    destruct (lookup_lt_is_Some_2 (store_calls evs) i) as [[args out] Hi'];
      [lia|].
    destruct (loop_run_store _ _ _ _ _ _ _ _ Hloop Hi')
      as (u & img & Hu & Himg & ->).
    assert ((store_calls evs).*2 !! i = Some out) as Hout.
    { by rewrite list_lookup_fmap, Hi'. }
    rewrite Houts, list_lookup_fmap in Hout.
    destruct (gcs_uris !! i) as [uri|] eqn:Huri; [|done].
    injection Hout as <-.
    exists img, u, uri, (vto_store_args u (0 + i) img).
    split_and!; done.
Qed.

(** C3. When the service responds with no result images ([None] or an
    empty list), [generate_vto_image] raises
    [ValueError("VTO API returned no generated images.")], the error the
    spec calls EmptyResultError, and has written nothing; and a call that
    returns has persisted at least one image: one successful write per
    URI it returns. *)
Theorem generate_vto_image_no_images p q sc bs w :
  let run := generate_vto_image p q sc bs (init w) in
  (∀ c req response,
     (c, req, Returns response) ∈ recontext_calls (trace_of run) →
     generated_images response = None ∨ generated_images response = Some [] →
     result_of run = Raises (ValueError "VTO API returned no generated images.")
     ∧ store_calls (trace_of run) = [])
  ∧ (∀ gcs_uris,
       result_of run = Returns gcs_uris →
       gcs_uris ≠ []
       ∧ length (store_calls (trace_of run)) = length gcs_uris
       ∧ (store_calls (trace_of run)).*2 = Returns <$> gcs_uris).
Proof.
  intros run. subst run. run_cases p q sc bs w.
  1-5: split; [|done].
  1-5: intros c0 req0 response0 Hcall Hnone;
       try (by apply elem_of_nil in Hcall); try done;
       apply list_elem_of_singleton in Hcall; done.
  match goal with H : loop_run _ _ _ _ _ |- _ => rename H into Hloop end.
  match goal with H : generated_images _ = Some (_ :: _) |- _ =>
    rename H into Himages end.
  split.
  - intros c0 req0 response0 Hcall Hnone.
    apply list_elem_of_singleton in Hcall. simplify_eq.
    rewrite Himages in Hnone. by destruct Hnone.
  - intros gcs_uris ->.
    destruct (loop_run_returns _ _ _ _ _ Hloop) as [Hall Hlen].
    destruct (loop_run_all_stored _ _ _ _ _ Hloop Hall)
      as (new_uris & [= ->] & Houts & Hnew).
    split_and!; [by destruct new_uris|simpl in *; lia|done].
Qed.

(** C4. When the k-th storage write of a call (k counted from 1) fails, it
    is the write for the k-th result image, exactly k writes were
    attempted in all, the k-1 before it and none after it, each of those
    before it succeeded, and the error of the failed write is the error
    [generate_vto_image] raises. *)
Theorem generate_vto_image_write_failure p q sc bs w k args e :
  let run := generate_vto_image p q sc bs (init w) in
  1 ≤ k →
  store_calls (trace_of run) !! (k - 1) = Some (args, Raises e) →
  length (store_calls (trace_of run)) = k
  ∧ (∀ j, j < k - 1 →
       ∃ args' uri, store_calls (trace_of run) !! j = Some (args', Returns uri))
  ∧ result_of run = Raises e
  ∧ ∃ c req response images image u,
      (c, req, Returns response) ∈ recontext_calls (trace_of run)
      ∧ generated_images response = Some images
      ∧ images !! (k - 1) = Some image
      ∧ args = vto_store_args u (k - 1) image.
Proof.
  intros run. subst run. run_cases p q sc bs w; intros Hk Hfail; try done.
  match goal with H : loop_run _ _ _ _ _ |- _ => rename H into Hloop end.
  destruct (loop_run_failed_store _ _ _ _ _ _ _ _ Hloop Hfail) as [Hlen ->].
  destruct (loop_run_store _ _ _ _ _ _ _ _ Hloop Hfail)
    as (u & img & _ & Himg & ->).
  split_and!; [lia| |done|].
  - intros j Hj. eapply loop_run_earlier_stores; [done|lia].
  - eexists c, _, response, _, img, u. split_and!; [|done..].
    apply list_elem_of_singleton. done.
Qed.

(** C5. When the person reference, or else the product reference, is not
    a form the converter recognises, the call makes no request to the
    service and no storage write, and it raises.  The function builds
    [genai.Client()], once, before it converts anything.  When the client
    was built, the call raises the error of the first failed conversion,
    the person reference being converted first and the product reference
    only after it, and that failed conversion is the last thing the call
    did.  When the constructor raised, the call raises the constructor's
    error and has converted no reference. *)
Theorem generate_vto_image_conversion_error p q sc bs w e :
  let run := generate_vto_image p q sc bs (init w) in
  https_url_to_gcs_uri p = Raises e
  ∨ (∃ pu, https_url_to_gcs_uri p = Returns pu ∧ https_url_to_gcs_uri q = Raises e) →
  recontext_calls (trace_of run) = []
  ∧ uuid_calls (trace_of run) = []
  ∧ store_calls (trace_of run) = []
  ∧ client_calls (trace_of run) = [(genai_Client w).1]
  ∧ match (genai_Client w).1 with
    | Raises e' =>
        result_of run = Raises e'
        ∧ convert_calls (trace_of run) = []
        ∧ last (trace_of run) = Some (ClientNew (Raises e'))
    | Returns c =>
        result_of run = Raises e
        ∧ match https_url_to_gcs_uri p with
          | Raises _ =>
              convert_calls (trace_of run) = [(p, Raises e)]
              ∧ last (trace_of run) = Some (Convert p (Raises e))
          | Returns pu =>
              convert_calls (trace_of run) = [(p, Returns pu); (q, Raises e)]
              ∧ last (trace_of run) = Some (Convert q (Raises e))
          end
    end.
Proof.
  intros run. subst run.
  run_cases p q sc bs w; intros [Hp|(pu' & Hp & Hq)]; same_calls;
    match goal with H : genai_Client w = _ |- _ => rewrite H end; simpl;
    try match goal with H : https_url_to_gcs_uri p = _ |- _ => rewrite H end;
    split_and!; done.
Qed.

(** C6. Every request a call sends to the service names the configured
    model identifier [cfg.VTO_MODEL_ID], the converted person location, a
    list of exactly one product image (the converted product location),
    the caller's [base_steps] and the caller's [sample_count]; a call
    sends at most one request, and sends one whenever the client was
    built and both conversions succeeded. *)
Theorem generate_vto_image_request p q sc bs w :
  let run := generate_vto_image p q sc bs (init w) in
  (∀ c req out,
     (c, req, out) ∈ recontext_calls (trace_of run) →
     ∃ pu qu,
       https_url_to_gcs_uri p = Returns pu
       ∧ https_url_to_gcs_uri q = Returns qu
       ∧ model req = VTO_MODEL_ID cfg
       ∧ location (person_image (source req)) = pu
       ∧ (product_image <$> product_images (source req)) = [ {| location := qu |} ]
       ∧ base_steps (config req) = bs
       ∧ number_of_images (config req) = sc
       ∧ recontext_calls (trace_of run) = [(c, req, out)])
  ∧ (∀ c pu qu,
       (genai_Client w).1 = Returns c →
       https_url_to_gcs_uri p = Returns pu →
       https_url_to_gcs_uri q = Returns qu →
       ∃ out, recontext_calls (trace_of run) = [(c, vto_request pu qu sc bs, out)]).
Proof.
  intros run. subst run.
  run_cases p q sc bs w; (split; [intros c0 req0 out0 Hcall|intros c0 pu0 qu0]);
    try (by apply elem_of_nil in Hcall);
    try (apply list_elem_of_singleton in Hcall; simplify_eq;
         by eexists _, _; split_and!);
    match goal with H : genai_Client w = _ |- _ => rewrite H end; simpl;
    intros; same_calls; eauto.
Qed.

(** C7. The i-th storage write of a call (i counted from 0) is made with
    folder "vto_results", content type "image/png" and [decode=False]; its
    contents are the bytes of the i-th generated image of the response,
    as they are; and its file name is
    "vto_result_" + str(u) + "-" + str(i) + "_.png", where u is the i-th
    identifier the call drew from [uuid4], one being drawn for each
    write. *)
Theorem generate_vto_image_store_arguments p q sc bs w i args out :
  let run := generate_vto_image p q sc bs (init w) in
  store_calls (trace_of run) !! i = Some (args, out) →
  ∃ c req response images image u,
    (c, req, Returns response) ∈ recontext_calls (trace_of run)
    ∧ generated_images response = Some images
    ∧ images !! i = Some image
    ∧ uuid_calls (trace_of run) !! i = Some u
    ∧ length (uuid_calls (trace_of run)) = length (store_calls (trace_of run))
    ∧ folder args = "vto_results"
    ∧ mime_type args = "image/png"
    ∧ decode args = false
    ∧ contents args = data image
    ∧ file_name args
      = "vto_result_" +:+ UUID_str u +:+ "-" +:+ format_index i +:+ "_.png".
Proof.
  intros run. subst run. run_cases p q sc bs w; intros Hi; try done.
  match goal with H : loop_run _ _ _ _ _ |- _ => rename H into Hloop end.
  destruct (loop_run_store _ _ _ _ _ _ _ _ Hloop Hi)
    as (u & img & Hu & Himg & ->).
  destruct (loop_run_lengths _ _ _ _ _ Hloop) as [Hlen _].
  eexists c, _, response, _, img, u.
  split_and!; try done. apply list_elem_of_singleton. done.
Qed.

(** C10. The file names a call passes to [store_to_gcs] are pairwise
    distinct, whatever identifiers [uuid4] hands out: a file name
    determines the index it embeds, so two names with different indices
    differ even when they embed the same identifier. *)
Theorem generate_vto_image_file_names_distinct p q sc bs w :
  let run := generate_vto_image p q sc bs (init w) in
  NoDup (file_name <$> (store_calls (trace_of run)).*1)
  ∧ (∀ u u' i j, i ≠ j → vto_file_name u i ≠ vto_file_name u' j).
Proof.
  intros run. subst run. split.
  - run_cases p q sc bs w; try by constructor.
    match goal with H : loop_run _ _ _ _ _ |- _ => rename H into Hloop end.
    apply NoDup_alt. intros i j name.
    rewrite !list_lookup_fmap.
    destruct (store_calls evs !! i) as [[a o]|] eqn:Hi; [|done].
    destruct (store_calls evs !! j) as [[a' o']|] eqn:Hj; [|done].
    simpl. intros [= <-] [= Heq].
    destruct (loop_run_store _ _ _ _ _ _ _ _ Hloop Hi) as (u & img & _ & _ & ->).
    destruct (loop_run_store _ _ _ _ _ _ _ _ Hloop Hj) as (u' & img' & _ & _ & ->).
    simpl in Heq. by apply vto_file_name_index in Heq.
  - intros u u' i j Hne Heq. by apply vto_file_name_index in Heq.
Qed.

(** ** The claims about [call_virtual_try_on] *)

Lemma call_virtual_try_on_unfold p q sc st :
  call_virtual_try_on p q sc st
  = (res_map legacy_response (generate_vto_image p q (default 1%Z sc) 32 st).1,
     (generate_vto_image p q (default 1%Z sc) 32 st).2).
Proof.
  unfold call_virtual_try_on, mbind, M_bind, mret, M_ret.
  by destruct (generate_vto_image p q (default 1%Z sc) 32 st) as [[gcs_uris|e] st'].
Qed.

(** C2. When [generate_vto_image] returns a list of URIs,
    [call_virtual_try_on] on the same inputs returns an object whose only
    attribute is [predictions], a list as long as that list whose i-th
    entry is the one-key dict that maps "gcsUri" to the i-th URI. *)
Theorem call_virtual_try_on_predictions p q sc st gcs_uris st' :
  generate_vto_image p q (default 1%Z sc) 32 st = (Returns gcs_uris, st') →
  ∃ predictions : list prediction,
    call_virtual_try_on p q sc st
    = (Returns ({[ "predictions" := predictions ]} : SimpleNamespace), st')
    ∧ length predictions = length gcs_uris
    ∧ (∀ i, predictions !! i ≫= (.!! "gcsUri") = gcs_uris !! i)
    ∧ (∀ i d, predictions !! i = Some d → dom d = ({[ "gcsUri" ]} : gset string)).
Proof.
  intros Hgen. rewrite call_virtual_try_on_unfold, Hgen. simpl.
  eexists. split; [reflexivity|]. split_and!.
  - by rewrite length_fmap.
  - intros i. rewrite list_lookup_fmap.
    destruct (gcs_uris !! i) as [uri|]; simpl; [|done].
    by rewrite lookup_singleton_eq.
  - intros i d. rewrite list_lookup_fmap.
    destruct (gcs_uris !! i) as [uri|]; simpl; [|done].
    intros [= <-]. by rewrite dom_singleton_L.
Qed.

(** C8. [call_virtual_try_on] is one call of [generate_vto_image] with the
    person and product references it was given, [sample_count] (1 when
    the caller leaves it out) and [base_steps=32], followed by the
    repackaging of a returned list: it makes the same collaborator calls
    and leaves the same world; the references it has converted are the
    caller's, in order, and a request it sends carries 32 steps and that
    output count. *)
Theorem call_virtual_try_on_delegates p q sc :
  (∀ st,
     call_virtual_try_on p q sc st
     = (res_map legacy_response
          (generate_vto_image p q (match sc with Some n => n | None => 1%Z end) 32 st).1,
        (generate_vto_image p q (match sc with Some n => n | None => 1%Z end) 32 st).2))
  ∧ (∀ w,
       let run := call_virtual_try_on p q sc (init w) in
       (convert_calls (trace_of run)).*1 `prefix_of` [p; q]
       ∧ ∀ c req out,
           (c, req, out) ∈ recontext_calls (trace_of run) →
           base_steps (config req) = 32%Z
           ∧ number_of_images (config req)
             = match sc with Some n => n | None => 1%Z end).
Proof.
  split; [intros st; apply call_virtual_try_on_unfold|].
  intros w run. subst run. rewrite call_virtual_try_on_unfold.
  unfold trace_of at 1 2. simpl.
  change (default 1%Z sc) with (match sc with Some n => n | None => 1%Z end).
  generalize (match sc with Some n => n | None => 1%Z end). intros n.
  change (trace (generate_vto_image p q n 32 (init w)).2)
    with (trace_of (generate_vto_image p q n 32 (init w))).
  pose proof (generate_vto_image_run p q n 32 w) as Hrun. revert Hrun.
  generalize (result_of (generate_vto_image p q n 32 (init w))).
  generalize (trace_of (generate_vto_image p q n 32 (init w))).
  intros tr r Hrun. destruct Hrun;
    unfold request_calls, request_banner, response_banner; simpl;
    try match goal with
        | Hloop : loop_run _ _ _ _ _ |- _ =>
            destruct (loop_run_only_stores _ _ _ _ _ Hloop) as (_ & -> & ->)
        end;
    (split;
     [ by (eexists; simpl; reflexivity)
     | intros c0 req0 out0 Hcall;
       try (by apply elem_of_nil in Hcall);
       apply list_elem_of_singleton in Hcall; by simplify_eq ]).
Qed.

(** C9. When [generate_vto_image] raises, [call_virtual_try_on] raises
    the same exception, having made the same calls and left the same
    world: it catches nothing and returns nothing. *)
Theorem call_virtual_try_on_propagates p q sc st e st' :
  generate_vto_image p q (default 1%Z sc) 32 st = (Raises e, st') →
  call_virtual_try_on p q sc st = (Raises e, st').
Proof. intros Hgen. by rewrite call_virtual_try_on_unfold, Hgen. Qed.

End vto_facts.

(** * The claims on concrete calls

    Each lemma below runs a claim on the test double of [Double]: its
    hypotheses are checked by evaluation and the theorem gives the rest. *)

Lemma generate_vto_image_one_uri_per_image_witness :
  let run := generate_vto_image Double.person Double.product 3 32
               (init Double.stocked) in
  let response := {| generated_images := Some [Double.img_a; Double.img_b; Double.img_c] |} in
  ((), vto_request "gs://studio/person.png" "gs://studio/shirt.png" 3 32,
   Returns response) ∈ recontext_calls (trace_of run)
  ∧ Forall (λ call, returned call.2) (store_calls (trace_of run))
  ∧ ∃ gcs_uris,
      result_of run = Returns gcs_uris
      ∧ length gcs_uris = 3
      ∧ gcs_uris ≠ []
      ∧ length (store_calls (trace_of run)) = 3
      ∧ ∀ i, i < 3 →
          ∃ image u uri args,
            [Double.img_a; Double.img_b; Double.img_c] !! i = Some image
            ∧ gcs_uris !! i = Some uri
            ∧ store_calls (trace_of run) !! i = Some (args, Returns uri)
            ∧ uuid_calls (trace_of run) !! i = Some u
            ∧ contents args = data image
            ∧ folder args = "vto_results"
            ∧ mime_type args = "image/png"
            ∧ decode args = false
            ∧ file_name args
              = "vto_result_" +:+ UUID_str u +:+ "-" +:+ format_index i +:+ "_.png".
Proof.
  intros run response.
  assert (((), vto_request "gs://studio/person.png" "gs://studio/shirt.png" 3 32,
           Returns response) ∈ recontext_calls (trace_of run)) as Hcall.
  { vm_compute. apply list_elem_of_here. }
  assert (Forall (λ call, returned call.2) (store_calls (trace_of run))) as Hall.
  { vm_compute. repeat constructor. }
  split; [exact Hcall|]. split; [exact Hall|].
  apply (generate_vto_image_one_uri_per_image
           Double.person Double.product 3 32 Double.stocked
           () _ response [Double.img_a; Double.img_b; Double.img_c] Hcall);
    [reflexivity|discriminate|exact Hall].
Defined.

Lemma call_virtual_try_on_predictions_witness :
  let gen := generate_vto_image Double.person Double.product 1 32
               (init Double.one_image) in
  let uri := Double.stored_uri (vto_file_name (MkUUID 10) 0) in
  gen = (Returns [uri], gen.2)
  ∧ ∃ predictions : list prediction,
      call_virtual_try_on Double.person Double.product None (init Double.one_image)
      = (Returns ({[ "predictions" := predictions ]} : SimpleNamespace), gen.2)
      ∧ length predictions = 1
      ∧ (∀ i, predictions !! i ≫= (.!! "gcsUri") = [uri] !! i)
      ∧ (∀ i d, predictions !! i = Some d → dom d = ({[ "gcsUri" ]} : gset string)).
Proof.
  intros gen uri.
  assert (gen = (Returns [uri], gen.2)) as Hgen by (vm_compute; reflexivity).
  split; [exact Hgen|].
  exact (call_virtual_try_on_predictions
           Double.person Double.product None (init Double.one_image)
           [uri] gen.2 Hgen).
Defined.

Lemma generate_vto_image_no_images_witness :
  let run := generate_vto_image Double.person Double.product 2 32
               (init Double.empty_reply) in
  ((), vto_request "gs://studio/person.png" "gs://studio/shirt.png" 2 32,
   Returns {| generated_images := Some [] |}) ∈ recontext_calls (trace_of run)
  ∧ result_of run = Raises (ValueError "VTO API returned no generated images.")
  ∧ store_calls (trace_of run) = [].
Proof.
  intros run.
  assert (((), vto_request "gs://studio/person.png" "gs://studio/shirt.png" 2 32,
           Returns {| generated_images := Some [] |})
          ∈ recontext_calls (trace_of run)) as Hcall.
  { vm_compute. apply list_elem_of_here. }
  split; [exact Hcall|].
  exact (proj1 (generate_vto_image_no_images
                  Double.person Double.product 2 32 Double.empty_reply)
           () _ _ Hcall (or_intror eq_refl)).
Defined.

Lemma generate_vto_image_write_failure_witness :
  let run := generate_vto_image Double.person Double.product 3 32
               (init Double.second_write_fails) in
  let args := vto_store_args (MkUUID 2) 1 Double.img_b in
  let e := Double.StorageWriteError (vto_file_name (MkUUID 2) 1) in
  1 ≤ 2
  ∧ store_calls (trace_of run) !! (2 - 1) = Some (args, Raises e)
  ∧ length (store_calls (trace_of run)) = 2
  ∧ (∀ j, j < 2 - 1 →
       ∃ args' uri, store_calls (trace_of run) !! j = Some (args', Returns uri))
  ∧ result_of run = Raises e
  ∧ ∃ c req response images image u,
      (c, req, Returns response) ∈ recontext_calls (trace_of run)
      ∧ generated_images response = Some images
      ∧ images !! (2 - 1) = Some image
      ∧ args = vto_store_args u (2 - 1) image.
Proof.
  intros run args e.
  assert (1 ≤ 2) as Hk by lia.
  assert (store_calls (trace_of run) !! (2 - 1) = Some (args, Raises e)) as Hfail
    by (vm_compute; reflexivity).
  split; [exact Hk|]. split; [exact Hfail|].
  exact (generate_vto_image_write_failure
           Double.person Double.product 3 32 Double.second_write_fails
           2 args e Hk Hfail).
Defined.

Lemma generate_vto_image_conversion_error_witness :
  let p := Some "ftp://example.com/person.png" in
  let e := Double.ConversionError p in
  let run := generate_vto_image p Double.product 1 32 (init Double.stocked) in
  let blocked := generate_vto_image p Double.product 1 32
                   (init Double.no_credentials) in
  let e' := ValueError "Missing key inputs argument!" in
  https_url_to_gcs_uri p = Raises e
  ∧ (recontext_calls (trace_of run) = []
     ∧ uuid_calls (trace_of run) = []
     ∧ store_calls (trace_of run) = []
     ∧ client_calls (trace_of run) = [Returns ()]
     ∧ result_of run = Raises e
     ∧ convert_calls (trace_of run) = [(p, Raises e)]
     ∧ last (trace_of run) = Some (Convert p (Raises e)))
  ∧ (recontext_calls (trace_of blocked) = []
     ∧ uuid_calls (trace_of blocked) = []
     ∧ store_calls (trace_of blocked) = []
     ∧ client_calls (trace_of blocked) = [Raises e']
     ∧ result_of blocked = Raises e'
     ∧ convert_calls (trace_of blocked) = []
     ∧ last (trace_of blocked) = Some (ClientNew (Raises e'))).
Proof.
  intros p e run blocked e'.
  assert (https_url_to_gcs_uri p = Raises e) as Hp by reflexivity.
  split; [exact Hp|]. split.
  - exact (generate_vto_image_conversion_error
             p Double.product 1 32 Double.stocked e (or_introl Hp)).
  - exact (generate_vto_image_conversion_error
             p Double.product 1 32 Double.no_credentials e (or_introl Hp)).
Defined.

Lemma generate_vto_image_request_witness :
  let run := generate_vto_image Double.person Double.product 2 48
               (init Double.stocked) in
  ∃ out,
    recontext_calls (trace_of run)
    = [((), {| model := "virtual-try-on-preview-08-04";
               source :=
                 {| person_image := {| location := "gs://studio/person.png" |};
                    product_images :=
                      [ {| product_image := {| location := "gs://studio/shirt.png" |} |} ] |};
               config := {| base_steps := 48; number_of_images := 2 |} |},
         out)].
Proof.
  intros run.
  exact (proj2 (generate_vto_image_request
                  Double.person Double.product 2 48 Double.stocked)
           () "gs://studio/person.png" "gs://studio/shirt.png"
           eq_refl eq_refl eq_refl).
Defined.

Lemma generate_vto_image_store_arguments_witness :
  let run := generate_vto_image Double.person Double.product 3 32
               (init Double.stocked) in
  let args := vto_store_args (MkUUID 7) 1 Double.img_b in
  let out := Returns (Double.stored_uri (vto_file_name (MkUUID 7) 1)) in
  store_calls (trace_of run) !! 1 = Some (args, out)
  ∧ ∃ c req response images image u,
      (c, req, Returns response) ∈ recontext_calls (trace_of run)
      ∧ generated_images response = Some images
      ∧ images !! 1 = Some image
      ∧ uuid_calls (trace_of run) !! 1 = Some u
      ∧ length (uuid_calls (trace_of run)) = length (store_calls (trace_of run))
      ∧ folder args = "vto_results"
      ∧ mime_type args = "image/png"
      ∧ decode args = false
      ∧ contents args = data image
      ∧ file_name args
        = "vto_result_" +:+ UUID_str u +:+ "-" +:+ format_index 1 +:+ "_.png".
Proof.
  intros run args out.
  assert (store_calls (trace_of run) !! 1 = Some (args, out)) as Hstore
    by (vm_compute; reflexivity).
  split; [exact Hstore|].
  exact (generate_vto_image_store_arguments
           Double.person Double.product 3 32 Double.stocked 1 args out Hstore).
Defined.

Lemma call_virtual_try_on_propagates_witness :
  let gen := generate_vto_image None None 1 32 (init Double.stocked) in
  let e := Double.ConversionError None in
  gen = (Raises e, gen.2)
  ∧ call_virtual_try_on None None None (init Double.stocked) = (Raises e, gen.2).
Proof.
  intros gen e.
  assert (gen = (Raises e, gen.2)) as Hgen by (vm_compute; reflexivity).
  split; [exact Hgen|].
  exact (call_virtual_try_on_propagates
           None None None (init Double.stocked) e gen.2 Hgen).
Defined.

Lemma generate_vto_image_file_names_distinct_witness :
  let run := generate_vto_image Double.person Double.product 3 32
               (init Double.stocked) in
  uuid_calls (trace_of run) = [MkUUID 7; MkUUID 7; MkUUID 9]
  ∧ NoDup (file_name <$> (store_calls (trace_of run)).*1).
Proof.
  intros run. split; [vm_compute; reflexivity|].
  exact (proj1 (generate_vto_image_file_names_distinct
                  Double.person Double.product 3 32 Double.stocked)).
Defined.

(** C5 as first stated, that the conversion error is what the call raises
    whenever a reference is not recognised, fails where no credentials are
    configured: [genai.Client()] raises before any reference is
    converted. *)
Lemma generate_vto_image_conversion_error_counterexample :
  let p := Some "ftp://example.com/person.png" in
  let run := generate_vto_image p Double.product 1 32
               (init Double.no_credentials) in
  https_url_to_gcs_uri p = Raises (Double.ConversionError p)
  ∧ result_of run = Raises (ValueError "Missing key inputs argument!")
  ∧ result_of run ≠ Raises (Double.ConversionError p)
  ∧ convert_calls (trace_of run) = [].
Proof.
  intros p run. split_and!.
  - reflexivity.
  - vm_compute. reflexivity.
  - vm_compute. intros [=].
  - vm_compute. reflexivity.
Qed.

(** * Further properties of the two functions *)

(** The service is unreachable: [recontext_image] raises. *)
Definition service_down : Double.World :=
  {| Double.credentials := true;
     Double.service := Raises (PyExn "ServerError" "503 UNAVAILABLE");
     Double.uuids := [4; 5]%N;
     Double.failing_write := None;
     Double.bucket := [] |}.

Section vto_more.
Context {World Client : Type} `{!Collaborators World Client}.

Implicit Types (w : World) (c : Client) (e : exn) (u : UUID).
Implicit Types (tr evs : list (@event Client)) (st : @state World Client).
Implicit Types (images : list GeneratedImage) (gcs_uris : list string).

(** What a trace shows on standard output: the lines printed and the
    responses printed, oldest first. *)
Fixpoint printed (tr : list (@event Client))
    : list (string + RecontextImageResponse) :=
  match tr with
  | [] => []
  | Stdout line :: tr' => inl line :: printed tr'
  | StdoutResponse response :: tr' => inr response :: printed tr'
  | _ :: tr' => printed tr'
  end.

(** The loop prints nothing. *)
Lemma loop_run_silent i images gcs_uris evs r :
  loop_run i images gcs_uris evs r → printed evs = [].
Proof. induction 1; simpl; auto. Qed.

(** A failed write ends the loop: it is the last call made. *)
Lemma loop_run_failed_last i images gcs_uris evs r args e :
  loop_run i images gcs_uris evs r →
  (args, Raises e) ∈ store_calls evs →
  last evs = Some (Store args (Raises e)) ∧ r = Raises e.
Proof.
  induction 1 as [i gcs_uris|i image images gcs_uris u e'
                 |i image images gcs_uris u uri evs r _ IH];
    simpl; intros Hin.
  - by apply elem_of_nil in Hin.
  - apply list_elem_of_singleton in Hin. by simplify_eq.
  - apply elem_of_cons in Hin as [[=]|Hin].
    destruct (IH Hin) as [Hlast ->]. split; [|done].
    by rewrite !last_cons, Hlast.
Qed.

Ltac call_cases p q sc bs w :=
  let Hrun := fresh "Hrun" in
  pose proof (generate_vto_image_run p q sc bs w) as Hrun;
  revert Hrun;
  generalize (result_of (generate_vto_image p q sc bs (init w)));
  generalize (trace_of (generate_vto_image p q sc bs (init w)));
  let tr := fresh "tr" in
  let r := fresh "r" in
  intros tr r Hrun; destruct Hrun;
  unfold request_calls, request_banner, response_banner; simpl;
  try match goal with
      | Hloop : loop_run _ _ _ _ _ |- _ =>
          let Hcl := fresh in
          let Hcv := fresh in
          let Hrc := fresh in
          let Hpr := fresh in
          destruct (loop_run_only_stores _ _ _ _ _ Hloop) as (Hcl & Hcv & Hrc);
          pose proof (loop_run_silent _ _ _ _ _ Hloop) as Hpr;
          rewrite ?Hcl, ?Hcv, ?Hrc, ?Hpr; clear Hcl Hcv Hrc Hpr
      end.

(** X1. When the request to the service raises, [generate_vto_image]
    raises the same exception and stops there: the failed request is the
    last thing it did, no identifier was drawn and nothing was written. *)
Theorem generate_vto_image_service_error p q sc bs w c req e :
  let run := generate_vto_image p q sc bs (init w) in
  (c, req, Raises e) ∈ recontext_calls (trace_of run) →
  result_of run = Raises e
  ∧ last (trace_of run) = Some (Recontext c req (Raises e))
  ∧ uuid_calls (trace_of run) = []
  ∧ store_calls (trace_of run) = [].
Proof.
  intros run. subst run. call_cases p q sc bs w; intros Hcall;
    try (by apply elem_of_nil in Hcall);
    apply list_elem_of_singleton in Hcall; by simplify_eq.
Qed.

(** X2. When [genai.Client()] raises, [generate_vto_image] raises the same
    exception having only printed the request banner: it has converted no
    reference, sent no request, drawn no identifier and written
    nothing. *)
Theorem generate_vto_image_client_error p q sc bs w e :
  let run := generate_vto_image p q sc bs (init w) in
  (genai_Client w).1 = Raises e →
  result_of run = Raises e
  ∧ trace_of run = request_banner p q ++ [ClientNew (Raises e)]
  ∧ convert_calls (trace_of run) = []
  ∧ recontext_calls (trace_of run) = []
  ∧ uuid_calls (trace_of run) = []
  ∧ store_calls (trace_of run) = [].
Proof.
  intros run. subst run. call_cases p q sc bs w;
    match goal with H : genai_Client w = _ |- _ => rewrite H end; simpl;
    intros Hclient; by simplify_eq.
Qed.

(** X3. A storage write that fails is the last thing a call does: the
    function raises the write's exception without printing, drawing,
    writing or calling anything after it, so whatever the earlier writes
    of the call stored is left in place and their URIs are not
    returned. *)
Theorem generate_vto_image_failed_write_is_last p q sc bs w args e :
  let run := generate_vto_image p q sc bs (init w) in
  (args, Raises e) ∈ store_calls (trace_of run) →
  last (trace_of run) = Some (Store args (Raises e))
  ∧ result_of run = Raises e
  ∧ length (uuid_calls (trace_of run)) = length (store_calls (trace_of run)).
Proof.
  intros run. subst run. call_cases p q sc bs w; intros Hin;
    try (by apply elem_of_nil in Hin).
  match goal with H : loop_run _ _ _ _ _ |- _ => rename H into Hloop end.
  destruct (loop_run_failed_last _ _ _ _ _ _ _ Hloop Hin) as [Hlast ->].
  destruct (loop_run_lengths _ _ _ _ _ Hloop) as [Hlen _].
  split_and!; [|done|done].
  by rewrite !last_cons, Hlast.
Qed.

(** X4. Every call starts by printing the five lines of the request
    banner, with the two references as given ([None] printed as "None")
    and the configured model, before it calls anything; after that it
    prints the response banner, with the response itself, exactly when
    the service returned one, also when that response holds no image. *)
Theorem generate_vto_image_prints p q sc bs w :
  let run := generate_vto_image p q sc bs (init w) in
  take 5 (trace_of run)
  = [ Stdout "--- VTO GenAI Request ---";
      Stdout ("Person Image: " +:+ format_str p);
      Stdout ("Product Image: " +:+ format_str q);
      Stdout ("Model: " +:+ VTO_MODEL_ID cfg);
      Stdout "-------------------------" ]
  ∧ printed (trace_of run)
    = printed (take 5 (trace_of run))
      ++ match recontext_calls (trace_of run) with
         | [(_, _, Returns response)] =>
             [ inl "--- VTO GenAI Response ---"; inr response;
               inl "------------------------" ]
         | _ => []
         end.
Proof. intros run. subst run. by call_cases p q sc bs w. Qed.

(** X5. A call returns only after the client was built, both references
    were converted, the service returned a response and every image of
    that response was written: the list returned has one URI for each
    image of the response, whatever [sample_count] asked for. *)
Theorem generate_vto_image_returns_only_if p q sc bs w gcs_uris :
  let run := generate_vto_image p q sc bs (init w) in
  result_of run = Returns gcs_uris →
  ∃ c pu qu response images,
    client_calls (trace_of run) = [Returns c]
    ∧ convert_calls (trace_of run) = [(p, Returns pu); (q, Returns qu)]
    ∧ recontext_calls (trace_of run)
      = [(c, vto_request pu qu sc bs, Returns response)]
    ∧ generated_images response = Some images
    ∧ length images = length gcs_uris
    ∧ (store_calls (trace_of run)).*2 = Returns <$> gcs_uris.
Proof.
  intros run. subst run. call_cases p q sc bs w; intros Hret; try done.
  match goal with H : loop_run _ _ _ _ _ |- _ => rename H into Hloop end.
  subst r.
  destruct (loop_run_returns _ _ _ _ _ Hloop) as [Hall _].
  destruct (loop_run_all_stored _ _ _ _ _ Hloop Hall)
    as (new_uris & [= ->] & Houts & Hnew).
  eexists c, pu, qu, response, _. split_and!; done.
Qed.

(** X6. When [call_virtual_try_on] returns, its [predictions] list is
    never empty, and its entries are, in order, the URIs that the
    storage writes of the call returned. *)
Theorem call_virtual_try_on_never_empty p q sc w ns :
  let run := call_virtual_try_on p q sc (init w) in
  result_of run = Returns ns →
  ∃ gcs_uris,
    ns = {[ "predictions" :=
              (λ uri, ({[ "gcsUri" := uri ]} : prediction)) <$> gcs_uris ]}
    ∧ gcs_uris ≠ []
    ∧ (store_calls (trace_of run)).*2 = Returns <$> gcs_uris.
Proof.
  intros run. subst run. rewrite call_virtual_try_on_unfold.
  unfold result_of at 1, trace_of at 1. simpl.
  change (trace (generate_vto_image p q (default 1%Z sc) 32 (init w)).2)
    with (trace_of (generate_vto_image p q (default 1%Z sc) 32 (init w))).
  change ((generate_vto_image p q (default 1%Z sc) 32 (init w)).1)
    with (result_of (generate_vto_image p q (default 1%Z sc) 32 (init w))).
  call_cases p q (default 1%Z sc) 32%Z w; simpl; intros Hret; try done.
  match goal with H : loop_run _ _ _ _ _ |- _ => rename H into Hloop end.
  destruct r as [gcs_uris|e]; simplify_eq/=.
  destruct (loop_run_returns _ _ _ _ _ Hloop) as [Hall _].
  destruct (loop_run_all_stored _ _ _ _ _ Hloop Hall)
    as (new_uris & [= ->] & Houts & Hnew).
  exists new_uris. split_and!; [done|by destruct new_uris|done].
Qed.

End vto_more.

(** ** File names: the identifier can be read back too *)

(** The grouping [UUID_str] applies to the 32 digits. *)
Definition grouped (hex : string) : string :=
  String.substring 0 8 hex +:+ "-" +:+ String.substring 8 4 hex +:+ "-" +:+
  String.substring 12 4 hex +:+ "-" +:+ String.substring 16 4 hex +:+ "-" +:+
  String.substring 20 12 hex.

Lemma string_app_assoc (s t v : string) : (s +:+ t) +:+ v = s +:+ (t +:+ v).
Proof.
  induction s as [|a s IH]; [done|].
  change (String a ((s +:+ t) +:+ v) = String a (s +:+ (t +:+ v))).
  by rewrite IH.
Qed.

Lemma string_app_length (s t : string) :
  String.length (s +:+ t) = String.length s + String.length t.
Proof.
  induction s as [|a s IH]; [done|].
  change (S (String.length (s +:+ t)) = S (String.length s + String.length t)).
  by rewrite IH.
Qed.

Lemma string_app_inj_length (s s' t t' : string) :
  String.length s = String.length s' →
  s +:+ t = s' +:+ t' → s = s' ∧ t = t'.
Proof.
  revert s'. induction s as [|a s IH]; intros [|a' s'] Hlen Heq;
    simpl in *; try done.
  injection Heq as -> Heq. injection Hlen as Hlen.
  destruct (IH s' Hlen Heq) as [-> ->]. done.
Qed.

Lemma hex_digits_app width x acc :
  hex_digits width x acc = hex_digits width x "" +:+ acc.
Proof.
  revert x acc. induction width as [|width IH]; intros x acc; simpl; [done|].
  rewrite (IH _ (String _ acc)), (IH _ (String _ "")).
  by rewrite string_app_assoc.
Qed.

Lemma hex_digits_length width x : String.length (hex_digits width x "") = width.
Proof.
  revert x. induction width as [|width IH]; intros x; simpl; [done|].
  rewrite hex_digits_app, string_app_length, IH. simpl. lia.
Qed.

Lemma hex_char_inj x y :
  (x < 16)%N → (y < 16)%N → hex_char x = hex_char y → x = y.
Proof. compute; intros. by repeat (discriminate || case_match). Qed.

(** The digits determine the integer, up to the width rendered. *)
Lemma hex_digits_inj width x y :
  hex_digits width x "" = hex_digits width y "" →
  (x `mod` 16 ^ N.of_nat width = y `mod` 16 ^ N.of_nat width)%N.
Proof.
  revert x y. induction width as [|width IH]; intros x y Heq.
  - simpl. by rewrite !N.mod_1_r.
  - simpl in Heq.
    rewrite (hex_digits_app _ (x `div` 16)), (hex_digits_app _ (y `div` 16)) in Heq.
    apply string_app_inj_length in Heq as [Hhigh [= Hlow]];
      [|by rewrite !hex_digits_length].
    apply hex_char_inj in Hlow; [|by apply N.mod_lt..].
    apply IH in Hhigh.
    rewrite Nat2N.inj_succ, N.pow_succ_r', !N.Div0.mod_mul_r.
    by rewrite Hlow, Hhigh.
Qed.

(** The grouping loses nothing of the 32 digits. *)
Lemma grouped_inj (h h' : string) :
  String.length h = 32 → String.length h' = 32 →
  grouped h = grouped h' → h = h'.
Proof.
  intros Hh Hh' Heq.
  do 32 (destruct h as [|? h]; [by simpl in Hh|]).
  destruct h; [|by simpl in Hh].
  do 32 (destruct h' as [|? h']; [by simpl in Hh'|]).
  destruct h'; [|by simpl in Hh'].
  cbv in Heq. by simplify_eq.
Qed.

Lemma UUID_str_inj u u' :
  (uuid_int u < 2 ^ 128)%N → (uuid_int u' < 2 ^ 128)%N →
  UUID_str u = UUID_str u' → u = u'.
Proof.
  destruct u as [x], u' as [y]; simpl. intros Hx Hy Heq.
  apply (grouped_inj (hex_digits 32 x "") (hex_digits 32 y "")) in Heq;
    [|apply hex_digits_length..].
  apply hex_digits_inj in Heq.
  change (16 ^ N.of_nat 32)%N with (2 ^ 128)%N in Heq.
  rewrite !N.mod_small in Heq by done. by subst.
Qed.

(** The text before the last dash of a name is determined by the name. *)
Lemma text_before_last_dash u u' d d' t t' :
  all_digits d = true → all_digits d' = true →
  mem_char "-" t = false → mem_char "-" t' = false →
  u +:+ String "-" (d +:+ String "_" t) = u' +:+ String "-" (d' +:+ String "_" t') →
  u = u'.
Proof.
  intros Hd Hd' Ht Ht'.
  assert (∀ d t, all_digits d = true → mem_char "-" t = false →
            mem_char "-" (d +:+ String "_" t) = false) as Hfree.
  { intros d0 t0 Hd0 Ht0. rewrite mem_char_app, all_digits_no_dash by done.
    simpl. by rewrite Ht0. }
  assert (∀ v s, mem_char "-" (v +:+ String "-" s) = true) as Hdash.
  { intros v s. rewrite mem_char_app. simpl. apply orb_true_r. }
  revert u'. induction u as [|c u IH]; intros [|c' u'] Heq; simpl in *.
  - done.
  - injection Heq as <- Heq.
    pose proof (Hfree d t Hd Ht) as Hno. rewrite Heq, Hdash in Hno. done.
  - injection Heq as -> Heq.
    pose proof (Hfree d' t' Hd' Ht') as Hno. rewrite <-Heq, Hdash in Hno. done.
  - injection Heq as -> Heq. f_equal. by eapply IH.
Qed.

(** X7. Two file names built from different identifiers, or for different
    indices, are different: a name determines both the identifier (a
    UUID's integer is below 2^128) and the index it was built from. *)
Theorem vto_file_name_distinct u u' i j :
  (uuid_int u < 2 ^ 128)%N → (uuid_int u' < 2 ^ 128)%N →
  u ≠ u' ∨ i ≠ j →
  vto_file_name u i ≠ vto_file_name u' j.
Proof.
  intros Hu Hu' Hne Heq.
  assert (i = j) as Hij by (by eapply vto_file_name_index).
  destruct Hne as [Hne|Hne]; [|done]. apply Hne.
  unfold vto_file_name in Heq.
  apply (inj (String.app "vto_result_")) in Heq.
  apply UUID_str_inj; [done..|].
  eapply (text_before_last_dash _ _ _ _ ".png" ".png");
    [apply format_index_digits..|done|done|exact Heq].
Qed.

(** ** The further properties on concrete calls *)

Lemma generate_vto_image_service_error_witness :
  let run := generate_vto_image Double.person Double.product 2 32
               (init service_down) in
  let req := vto_request "gs://studio/person.png" "gs://studio/shirt.png" 2 32 in
  let e := PyExn "ServerError" "503 UNAVAILABLE" in
  ((), req, Raises e) ∈ recontext_calls (trace_of run)
  ∧ result_of run = Raises e
  ∧ last (trace_of run) = Some (Recontext () req (Raises e))
  ∧ uuid_calls (trace_of run) = []
  ∧ store_calls (trace_of run) = [].
Proof.
  intros run req e.
  assert (((), req, Raises e) ∈ recontext_calls (trace_of run)) as Hcall.
  { vm_compute. apply list_elem_of_here. }
  split; [exact Hcall|].
  exact (generate_vto_image_service_error
           Double.person Double.product 2 32 service_down () req e Hcall).
Defined.

Lemma generate_vto_image_client_error_witness :
  let run := generate_vto_image None Double.product 1 32
               (init Double.no_credentials) in
  let e := ValueError "Missing key inputs argument!" in
  (genai_Client Double.no_credentials).1 = Raises e
  ∧ result_of run = Raises e
  ∧ trace_of run = request_banner None Double.product ++ [ClientNew (Raises e)]
  ∧ convert_calls (trace_of run) = []
  ∧ recontext_calls (trace_of run) = []
  ∧ uuid_calls (trace_of run) = []
  ∧ store_calls (trace_of run) = [].
Proof.
  intros run e.
  assert ((genai_Client Double.no_credentials).1 = Raises e) as Hclient
    by reflexivity.
  split; [exact Hclient|].
  exact (generate_vto_image_client_error
           None Double.product 1 32 Double.no_credentials e Hclient).
Defined.

Lemma generate_vto_image_failed_write_is_last_witness :
  let run := generate_vto_image Double.person Double.product 3 32
               (init Double.second_write_fails) in
  let args := vto_store_args (MkUUID 2) 1 Double.img_b in
  let e := Double.StorageWriteError (vto_file_name (MkUUID 2) 1) in
  (args, Raises e) ∈ store_calls (trace_of run)
  ∧ last (trace_of run) = Some (Store args (Raises e))
  ∧ result_of run = Raises e
  ∧ length (uuid_calls (trace_of run)) = length (store_calls (trace_of run)).
Proof.
  intros run args e.
  assert ((args, Raises e) ∈ store_calls (trace_of run)) as Hin.
  { vm_compute. apply list_elem_of_further, list_elem_of_here. }
  split; [exact Hin|].
  exact (generate_vto_image_failed_write_is_last
           Double.person Double.product 3 32 Double.second_write_fails
           args e Hin).
Defined.

Lemma generate_vto_image_returns_only_if_witness :
  let run := generate_vto_image Double.person Double.product 1 32
               (init Double.stocked) in
  let gcs_uris :=
    [ Double.stored_uri (vto_file_name (MkUUID 7) 0);
      Double.stored_uri (vto_file_name (MkUUID 7) 1);
      Double.stored_uri (vto_file_name (MkUUID 9) 2) ] in
  result_of run = Returns gcs_uris
  ∧ ∃ c pu qu response images,
      client_calls (trace_of run) = [Returns c]
      ∧ convert_calls (trace_of run)
        = [(Double.person, Returns pu); (Double.product, Returns qu)]
      ∧ recontext_calls (trace_of run)
        = [(c, vto_request pu qu 1 32, Returns response)]
      ∧ generated_images response = Some images
      ∧ length images = 3
      ∧ (store_calls (trace_of run)).*2 = Returns <$> gcs_uris.
Proof.
  intros run gcs_uris.
  assert (result_of run = Returns gcs_uris) as Hret by (vm_compute; reflexivity).
  split; [exact Hret|].
  exact (generate_vto_image_returns_only_if
           Double.person Double.product 1 32 Double.stocked gcs_uris Hret).
Defined.

Lemma call_virtual_try_on_never_empty_witness :
  let run := call_virtual_try_on Double.person Double.product None
               (init Double.one_image) in
  let uri := Double.stored_uri (vto_file_name (MkUUID 10) 0) in
  let ns : SimpleNamespace :=
    {[ "predictions" := [ ({[ "gcsUri" := uri ]} : prediction) ] ]} in
  result_of run = Returns ns
  ∧ ∃ gcs_uris,
      ns = {[ "predictions" :=
                (λ uri, ({[ "gcsUri" := uri ]} : prediction)) <$> gcs_uris ]}
      ∧ gcs_uris ≠ []
      ∧ (store_calls (trace_of run)).*2 = Returns <$> gcs_uris.
Proof.
  intros run uri ns.
  assert (result_of run = Returns ns) as Hret by (vm_compute; reflexivity).
  split; [exact Hret|].
  exact (call_virtual_try_on_never_empty
           Double.person Double.product None Double.one_image ns Hret).
Defined.

Lemma vto_file_name_distinct_witness :
  (uuid_int (MkUUID 7) < 2 ^ 128)%N
  ∧ (uuid_int (MkUUID 9) < 2 ^ 128)%N
  ∧ MkUUID 7 ≠ MkUUID 9
  ∧ vto_file_name (MkUUID 7) 0 ≠ vto_file_name (MkUUID 9) 0.
Proof.
  assert (uuid_int (MkUUID 7) < 2 ^ 128)%N as H7 by (vm_compute; reflexivity).
  assert (uuid_int (MkUUID 9) < 2 ^ 128)%N as H9 by (vm_compute; reflexivity).
  assert (MkUUID 7 ≠ MkUUID 9) as Hne by discriminate.
  split; [exact H7|]. split; [exact H9|]. split; [exact Hne|].
  exact (vto_file_name_distinct (MkUUID 7) (MkUUID 9) 0 0 H7 H9 (or_introl Hne)).
Defined.
